(** * VideoProcessingAgent: the request/response flow of [search_agent.py]

    A shallow embedding of [VideoProcessingAgent] (its constructor, [assist],
    [transcribe_video], [convert_mp4_to_audio] and [summarize_text]) as
    computations in a state-and-exception monad over an explicit world: the
    file system, the names the [tempfile] module will try, and the trace of
    every effect on an outside collaborator (response handler, speech
    service, model provider, client constructors). *)

From Stdlib Require Import ZArith Lia.
From stdpp Require Import base option list strings gmap.

Local Open Scope string_scope.
Local Open Scope list_scope.

(** ** Python values and exceptions *)

Abbreviation bytes := (list Byte.byte).

(** The one-character string ["\n"]. *)
Definition NL : string := String (Ascii.ascii_of_nat 10) EmptyString.

Inductive Exn : Type :=
| ValueError (msg : string)
| TypeError (msg : string)
| IndexError (msg : string)
| FileExistsError (msg : string)
| FileNotFoundError (msg : string)
| ServiceError (msg : string).      (* raised by a network collaborator *)

(** What an attachment of a query may hold. *)
Inductive PyVal : Type :=
| PyNone
| PyBool (b : bool)
| PyInt (z : Z)
| PyStr (s : string)
| PyBytes (b : bytes).

(** Truth value testing, as [not x] and [if x] do it. *)
Definition truthy (v : PyVal) : bool :=
  match v with
  | PyNone => false
  | PyBool b => b
  | PyInt z => negb (z =? 0)%Z
  | PyStr s => negb (String.eqb s "")
  | PyBytes b => match b with [] => false | _ :: _ => true end
  end.

(** [os.getenv(k)] yields a string or [None]; [not v] holds of [None] and of
    the empty string. *)
Definition str_truthy (v : option string) : bool :=
  match v with
  | None => false
  | Some s => negb (String.eqb s "")
  end.

(** [d.get(k)]: the value, or [None] when the key is absent. *)
Definition dict_get (d : gmap string PyVal) (k : string) : PyVal :=
  default PyNone (d !! k).

(** ** Collaborators *)

(** A streamed completion: the fragments the provider delivers, then either
    the end of the stream or an exception. *)
Record Stream : Type := mkStream {
  fragments : list string;
  failure : option Exn
}.

Inductive Result (A : Type) : Type :=
| Ok (a : A)
| Raise (e : Exn).
Arguments Ok {A} a.
Arguments Raise {A} e.

Record ModelProvider : Type := mkModelProvider {
  model_api_key : string;
  query_stream : string -> Stream
}.

Record SearchProvider : Type := mkSearchProvider {
  search_api_key : string
}.

Inductive AudioEncoding : Type := ENCODING_UNSPECIFIED | LINEAR16 | FLAC.

Record RecognitionConfig : Type := mkRecognitionConfig {
  encoding : AudioEncoding;
  sample_rate_hertz : Z;
  language_code : string
}.

Record RecognitionAudio : Type := mkRecognitionAudio {
  content : bytes
}.

Record SpeechRecognitionAlternative : Type := mkAlternative {
  transcript : string
}.

Record SpeechRecognitionResult : Type := mkRecognitionResult {
  alternatives : list SpeechRecognitionAlternative
}.

Record RecognizeResponse : Type := mkRecognizeResponse {
  results : list SpeechRecognitionResult
}.

Record SpeechClient : Type := mkSpeechClient {
  recognize : RecognitionConfig -> RecognitionAudio -> Result RecognizeResponse
}.

(** The agent object: [AbstractAgent] keeps the name, the constructor adds
    the three clients. *)
Record Agent : Type := mkAgent {
  name : string;
  _model_provider : ModelProvider;
  _search_provider : SearchProvider;
  _speech_client : SpeechClient
}.

Record Query : Type := mkQuery {
  attachments : gmap string PyVal
}.

(** ** Async generators *)

(** The frame of the async generator that a call of [summarize_text]
    creates: not yet started, suspended at the [yield] inside the
    [async for] (holding what the provider's iterator has left), or
    finished. *)
Inductive AsyncGen : Type :=
| GenCreated (self : Agent) (text : string)
| GenSuspended (rest : list string) (fin : option Exn)
| GenFinished.

(** ** The world *)

Inductive Payload : Type :=
| PStr (s : string)
| PAsyncGen (g : AsyncGen).

Inductive Event : Type :=
| EmitTextBlock (label msg : string)
| EmitJson (label : string) (payload : list (string * Payload))
| Complete
| CreateTempFile (path : string)
| ReadFile (path : string)
| Recognize (config : RecognitionConfig) (audio : RecognitionAudio)
| QueryStream (prompt : string)
| StreamNext
| NewModelProvider (api_key : string)
| NewSearchProvider (api_key : string)
| NewSpeechClient.

Record World : Type := mkWorld {
  fs : gmap string bytes;
  tmp_candidates : list string;
  trace : list Event
}.

Definition log (ev : Event) (w : World) : World :=
  {| fs := fs w; tmp_candidates := tmp_candidates w; trace := trace w ++ [ev] |}.

(** ** The monad of effectful code *)

Definition M (A : Type) : Type := World -> Result A * World.

Definition ret {A} (a : A) : M A := fun w => (Ok a, w).

Definition raise {A} (e : Exn) : M A := fun w => (Raise e, w).

Definition bind {A B} (c : M A) (k : A -> M B) : M B :=
  fun w =>
    match c w with
    | (Ok a, w') => k a w'
    | (Raise e, w') => (Raise e, w')
    end.

Declare Scope py_scope.
Delimit Scope py_scope with py.
Notation "x <- c ;; k" := (bind c (fun x => k))
  (at level 100, c at next level, right associativity) : py_scope.
Notation "c ;; k" := (bind c (fun _ => k))
  (at level 100, right associativity) : py_scope.
Local Open Scope py_scope.

Definition emit (ev : Event) : M unit := fun w => (Ok tt, log ev w).

(** A pure, fallible value lifted into the monad. *)
Definition lift {A} (r : Result A) : M A := fun w => (r, w).

(** What calling an [async def] function gives: a coroutine, which [await]
    runs, or (when the body has a [yield]) an async generator object, which
    has no [__await__]. *)
Inductive Called (A : Type) : Type :=
| coroutine (body : M A)
| async_generator (g : AsyncGen).
Arguments coroutine {A} body.
Arguments async_generator {A} g.

Definition await {A} (o : Called A) : M A :=
  match o with
  | coroutine body => body
  | async_generator _ =>
      raise (TypeError "object async_generator can't be used in 'await' expression")
  end.

(** ** The response handler *)

Module response_handler.
Definition emit_text_block (label msg : string) : Called unit :=
  coroutine (emit (EmitTextBlock label msg)).
Definition emit_json (label : string) (payload : list (string * Payload)) : Called unit :=
  coroutine (emit (EmitJson label payload)).
Definition complete : Called unit :=
  coroutine (emit Complete).
End response_handler.

(** ** Files *)

(** [tempfile] tries candidate names until one does not exist, creates that
    file empty, and gives up when the candidates are exhausted. *)
Fixpoint first_unused (files : gmap string bytes) (names : list string)
  : option (string * list string) :=
  match names with
  | [] => None
  | n :: rest =>
      match files !! n with
      | None => Some (n, rest)
      | Some _ => first_unused files rest
      end
  end.

Definition NamedTemporaryFile : M string := fun w =>
  match first_unused (fs w) (tmp_candidates w) with
  | Some (n, rest) =>
      (Ok n, {| fs := <[n := []]> (fs w);
                tmp_candidates := rest;
                trace := trace w ++ [CreateTempFile n] |})
  | None =>
      (Raise (FileExistsError "No usable temporary file name found"),
       {| fs := fs w; tmp_candidates := []; trace := trace w |})
  end.

(** [open(path, "rb")] followed by [read()]. *)
Definition read_file (path : string) : M bytes := fun w =>
  match fs w !! path with
  | Some b => (Ok b, log (ReadFile path) w)
  | None => (Raise (FileNotFoundError path), w)
  end.

(** ** Pure helpers of the source's expressions *)

(** A list comprehension whose element expression may raise: elements are
    evaluated left to right and the first exception ends it. *)
Fixpoint comprehension {A B} (f : A -> Result B) (l : list A) : Result (list B) :=
  match l with
  | [] => Ok []
  | x :: rest =>
      match f x with
      | Raise e => Raise e
      | Ok y =>
          match comprehension f rest with
          | Raise e => Raise e
          | Ok ys => Ok (y :: ys)
          end
      end
  end.

(** [result.alternatives[0].transcript] *)
Definition top_transcript (result : SpeechRecognitionResult) : Result string :=
  match alternatives result with
  | a :: _ => Ok (transcript a)
  | [] => Raise (IndexError "list index out of range")
  end.

(** [sep.join(l)] *)
Definition join (sep : string) (l : list string) : string := String.concat sep l.

(** A value that is a string whenever it is truthy, read as that string. *)
Definition as_str (v : option string) : string := default "" v.

(** A constructor call of a client class: the client exists (and the trace
    says so) only when the constructor returns. *)
Definition construct {A} (ev : Event) (r : Result A) : M A := fun w =>
  match r with
  | Ok a => (Ok a, log ev w)
  | Raise e => (Raise e, w)
  end.

Inductive Session : Type := mkSession (session_id : nat).

(** ** The agent *)

Module VideoProcessingAgent.

Section construction.
(** The client classes live outside this file: [ModelProvider(api_key=k)],
    [SearchProvider(api_key=k)] and [speech.SpeechClient()]. *)
Variable new_ModelProvider : string -> Result ModelProvider.
Variable new_SearchProvider : string -> Result SearchProvider.
Variable new_SpeechClient : Result SpeechClient.

Definition __init__ (environ : gmap string string) (name : string) : M Agent :=
  let model_api_key := environ !! "MODEL_API_KEY" in
  if negb (str_truthy model_api_key) then
    raise (ValueError "MODEL_API_KEY is not set")
  else
    mp <- construct (NewModelProvider (as_str model_api_key))
                    (new_ModelProvider (as_str model_api_key)) ;;
    let search_api_key := environ !! "TAVILY_API_KEY" in
    if negb (str_truthy search_api_key) then
      raise (ValueError "TAVILY_API_KEY is not set")
    else
      sp <- construct (NewSearchProvider (as_str search_api_key))
                      (new_SearchProvider (as_str search_api_key)) ;;
      let google_cloud_speech_api_key := environ !! "GOOGLE_CLOUD_SPEECH_API_KEY" in
      if negb (str_truthy google_cloud_speech_api_key) then
        raise (ValueError "GOOGLE_CLOUD_SPEECH_API_KEY is not set")
      else
        sc <- construct NewSpeechClient new_SpeechClient ;;
        ret {| name := name;
               _model_provider := mp;
               _search_provider := sp;
               _speech_client := sc |}.
End construction.

(** The body is [pass]: nothing is done and [None] is returned. *)
Definition convert_mp4_to_audio (self : Agent) (mp4_file : PyVal)
    (output_audio_path : string) : M unit :=
  ret tt.

Definition transcribe_video (self : Agent) (mp4_file : PyVal) : Called string :=
  coroutine (
    audio_path <- NamedTemporaryFile ;;
    convert_mp4_to_audio self mp4_file audio_path ;;
    audio_content <- read_file audio_path ;;
    let audio := {| content := audio_content |} in
    let config := {| encoding := LINEAR16;
                     sample_rate_hertz := 16000;
                     language_code := "en-US" |} in
    emit (Recognize config audio) ;;
    response <- lift (recognize (_speech_client self) config audio) ;;
    texts <- lift (comprehension top_transcript (results response)) ;;
    let transcription := join NL texts in
    ret transcription).

(** The body has a [yield]: a call runs none of it and returns the
    generator object. *)
Definition summarize_text (self : Agent) (text : string) : Called Payload :=
  async_generator (GenCreated self text).

Definition assist (self : Agent) (session : Session) (query : Query) : Called unit :=
  coroutine (
    let mp4_file := dict_get (attachments query) "mp4_file" in
    if negb (truthy mp4_file) then
      await (response_handler.emit_text_block "ERROR" "No MP4 file provided.") ;;
      ret tt
    else
      await (response_handler.emit_text_block "PROCESSING" "Processing MP4 file...") ;;
      transcription <- await (transcribe_video self mp4_file) ;;
      summary <- await (summarize_text self transcription) ;;
      await (response_handler.emit_json "TRANSCRIPTION" [("text", PStr transcription)]) ;;
      await (response_handler.emit_json "SUMMARY" [("summary", summary)]) ;;
      await response_handler.complete).

End VideoProcessingAgent.

(** ** Running the generator of [summarize_text] *)

Inductive Step : Type :=
| Yielded (chunk : string)
| StopAsyncIteration
| Raised (e : Exn).

(** One turn of the [async for] over the provider's stream: the next
    fragment is requested, and yielded if there is one. *)
Definition stream_next (rest : list string) (fin : option Exn) (w : World)
  : Step * AsyncGen * World :=
  let w' := log StreamNext w in
  match rest with
  | chunk :: rest' => (Yielded chunk, GenSuspended rest' fin, w')
  | [] =>
      match fin with
      | None => (StopAsyncIteration, GenFinished, w')
      | Some e => (Raised e, GenFinished, w')
      end
  end.

(** [g.__anext__()], awaited: the body runs up to its next [yield]. *)
Definition anext (g : AsyncGen) (w : World) : Step * AsyncGen * World :=
  match g with
  | GenCreated self text =>
      let summary_query := "Summarize the following text: " +:+ text in
      let s := query_stream (_model_provider self) summary_query in
      stream_next (fragments s) (failure s) (log (QueryStream summary_query) w)
  | GenSuspended rest fin => stream_next rest fin w
  | GenFinished => (StopAsyncIteration, GenFinished, w)
  end.

(** What a consumer sees when it drives the generator to its end with
    [async for chunk in g]: the chunks in order, and how it ended ([None]
    while it has not). *)
Record Drained : Type := mkDrained {
  chunks : list string;
  ending : option (option Exn);
  gen_after : AsyncGen;
  world_after : World
}.

Fixpoint async_for (fuel : nat) (g : AsyncGen) (w : World) : Drained :=
  match fuel with
  | O => mkDrained [] None g w
  | S fuel' =>
      match anext g w with
      | (Yielded chunk, g', w') =>
          let d := async_for fuel' g' w' in
          mkDrained (chunk :: chunks d) (ending d) (gen_after d) (world_after d)
      | (StopAsyncIteration, g', w') => mkDrained [] (Some None) g' w'
      | (Raised e, g', w') => mkDrained [] (Some (Some e)) g' w'
      end
  end.

(** Running a coroutine object to completion. *)
Definition run {A} (o : Called A) (w : World) : Result A * World := await o w.

(** ** Observations on a trace *)

(** The blocks and the completion signal the response handler received. *)
Definition is_block (ev : Event) : bool :=
  match ev with
  | EmitTextBlock _ _ | EmitJson _ _ | Complete => true
  | _ => false
  end.

Definition blocks (t : list Event) : list Event := List.filter is_block t.

(** The requests sent to the speech service. *)
Definition is_recognize (ev : Event) : bool :=
  match ev with
  | Recognize _ _ => true
  | _ => false
  end.

(** The traffic with the model provider. *)
Definition is_model_traffic (ev : Event) : bool :=
  match ev with
  | QueryStream _ | StreamNext => true
  | _ => false
  end.

(** The prompt of [summarize_text]. *)
Definition summary_prompt (text : string) : string :=
  "Summarize the following text: " +:+ text.

(** The request [transcribe_video] sends for the audio it read. *)
Definition linear16_en_US : RecognitionConfig :=
  {| encoding := LINEAR16; sample_rate_hertz := 16000; language_code := "en-US" |}.

(** The transcript of the first alternative of a result that has one. *)
Definition top_of (r : SpeechRecognitionResult) : string :=
  transcript (List.hd (mkAlternative "") (alternatives r)).

(** The claim's words for the transcript: the strings of [l], in their
    order, with one line feed (the character of code 10, bits given from
    the lowest) between each two neighbours, and nothing before the first
    or after the last. *)
Fixpoint newline_joined (l : list string) : string :=
  match l with
  | [] => ""
  | x :: rest =>
      match rest with
      | [] => x
      | _ :: _ =>
          x +:+ String (Ascii.Ascii false true false true false false false false)
                       (newline_joined rest)
      end
  end.

(** The variables the constructor requires, in the order it reads them, and
    the client each one configures. *)
Definition required_vars : list string :=
  ["MODEL_API_KEY"; "TAVILY_API_KEY"; "GOOGLE_CLOUD_SPEECH_API_KEY"].

Definition unset (environ : gmap string string) (var : string) : Prop :=
  str_truthy (environ !! var) = false.

Definition clients (environ : gmap string string) : list Event :=
  [NewModelProvider (as_str (environ !! "MODEL_API_KEY"));
   NewSearchProvider (as_str (environ !! "TAVILY_API_KEY"));
   NewSpeechClient].

(** The first required variable that is unset or empty, with its position. *)
Definition first_unset (environ : gmap string string) : option (nat * string) :=
  list_find (fun var => str_truthy (environ !! var) = false) required_vars.

Definition with_trace (w : World) (evs : list Event) : World :=
  {| fs := fs w; tmp_candidates := tmp_candidates w; trace := trace w ++ evs |}.

(** ** Test doubles *)

Module Doubles.

Definition two_segments : RecognizeResponse :=
  {| results :=
       [ {| alternatives := [mkAlternative "hello"; mkAlternative "hallo"] |};
         {| alternatives := [mkAlternative "world"] |} ] |}.

Definition speech_hello_world : SpeechClient :=
  {| recognize := fun _ _ => Ok two_segments |}.

Definition speech_down : SpeechClient :=
  {| recognize := fun _ _ => Raise (ServiceError "speech service unavailable") |}.

Definition model_abc : ModelProvider :=
  {| model_api_key := "sk-model";
     query_stream := fun _ => {| fragments := ["A"; "B"; "C"]; failure := None |} |}.

Definition agent : Agent :=
  {| name := "Video Processing Agent";
     _model_provider := model_abc;
     _search_provider := {| search_api_key := "tvly" |};
     _speech_client := speech_hello_world |}.

Definition agent_speech_down : Agent :=
  {| name := "Video Processing Agent";
     _model_provider := model_abc;
     _search_provider := {| search_api_key := "tvly" |};
     _speech_client := speech_down |}.

Definition session : Session := mkSession 1.

Definition query_with_video : Query :=
  {| attachments := {[ "mp4_file" := PyStr "video.mp4" ]} |}.

Definition query_without_video : Query :=
  {| attachments := {[ "note" := PyStr "hi" ]} |}.

Definition query_empty_video : Query :=
  {| attachments := {[ "mp4_file" := PyStr "" ]} |}.

Definition world : World :=
  {| fs := ∅; tmp_candidates := ["/tmp/tmp0a1b2c"; "/tmp/tmp3d4e5f"]; trace := [] |}.

Definition new_ModelProvider (k : string) : Result ModelProvider :=
  Ok {| model_api_key := k; query_stream := query_stream model_abc |}.

Definition new_SearchProvider (k : string) : Result SearchProvider :=
  Ok {| search_api_key := k |}.

Definition new_SpeechClient : Result SpeechClient := Ok speech_hello_world.

Definition env_model_only : gmap string string :=
  {[ "MODEL_API_KEY" := "sk-model" ]}.

Definition env_no_speech_key : gmap string string :=
  <[ "TAVILY_API_KEY" := "tvly" ]> env_model_only.

End Doubles.

(** ** The entry point *)

(** [DefaultServer(agent)] keeps the agent it will dispatch sessions to. *)
Record DefaultServer : Type := mkDefaultServer {
  server_agent : Agent
}.

Section entry_point.
Variable new_ModelProvider : string -> Result ModelProvider.
Variable new_SearchProvider : string -> Result SearchProvider.
Variable new_SpeechClient : Result SpeechClient.
(** [server.run()], the framework's serving loop. *)
Variable server_run : DefaultServer -> M unit.

(** The body of [if __name__ == "__main__":]. *)
Definition main (environ : gmap string string) : M unit :=
  agent <- VideoProcessingAgent.__init__ new_ModelProvider new_SearchProvider
             new_SpeechClient environ "Video Processing Agent" ;;
  let server := mkDefaultServer agent in
  server_run server.
End entry_point.

(** ** More test doubles *)

Module MoreDoubles.

(** A second segment without any alternative. *)
Definition segment_without_alternative : RecognizeResponse :=
  {| results :=
       [ {| alternatives := [mkAlternative "hello"] |};
         {| alternatives := [] |} ] |}.

Definition speech_gap : SpeechClient :=
  {| recognize := fun _ _ => Ok segment_without_alternative |}.

Definition agent_speech_gap : Agent :=
  {| name := "Video Processing Agent";
     _model_provider := Doubles.model_abc;
     _search_provider := {| search_api_key := "tvly" |};
     _speech_client := speech_gap |}.

Definition speech_silent : SpeechClient :=
  {| recognize := fun _ _ => Ok {| results := [] |} |}.

Definition agent_speech_silent : Agent :=
  {| name := "Video Processing Agent";
     _model_provider := Doubles.model_abc;
     _search_provider := {| search_api_key := "tvly" |};
     _speech_client := speech_silent |}.

Definition env_complete : gmap string string :=
  <[ "GOOGLE_CLOUD_SPEECH_API_KEY" := "g-key" ]> Doubles.env_no_speech_key.

(** [speech.SpeechClient()] on a machine without credentials. *)
Definition no_credentials : Result SpeechClient :=
  Raise (ServiceError "default credentials were not found").

Definition query_with_bytes : Query :=
  {| attachments := {[ "mp4_file" := PyBytes [Byte.x00; Byte.x01] ]} |}.

(** A serving loop that signals completion once, and one that does nothing. *)
Definition server_run_once (server : DefaultServer) : M unit := emit Complete.

Definition server_run_idle (server : DefaultServer) : M unit := ret tt.

End MoreDoubles.

Import VideoProcessingAgent.

(** ** Traces *)

Lemma blocks_app t1 t2 : blocks (t1 ++ t2) = blocks t1 ++ blocks t2.
Proof. apply List.filter_app. Qed.

(** ** [transcribe_video], step by step *)

(** The whole run of [transcribe_video]: a temporary file is created empty,
    read back, and its (empty) content is what the speech service is asked
    to recognise; the answer decides the outcome. *)
Lemma transcribe_video_run self mp4_file w :
  run (transcribe_video self mp4_file) w =
  match first_unused (fs w) (tmp_candidates w) with
  | None =>
      (Raise (FileExistsError "No usable temporary file name found"),
       {| fs := fs w; tmp_candidates := []; trace := trace w |})
  | Some (n, rest) =>
      let w' := {| fs := <[n := []]> (fs w);
                   tmp_candidates := rest;
                   trace := trace w ++ [CreateTempFile n; ReadFile n;
                                        Recognize linear16_en_US {| content := [] |}] |} in
      match recognize (_speech_client self) linear16_en_US {| content := [] |} with
      | Raise e => (Raise e, w')
      | Ok response =>
          match comprehension top_transcript (results response) with
          | Raise e => (Raise e, w')
          | Ok texts => (Ok (join NL texts), w')
          end
      end
  end.
Proof.
  unfold run, transcribe_video, await, bind, NamedTemporaryFile.
  destruct (first_unused (fs w) (tmp_candidates w)) as [[n rest]|]; [|reflexivity].
  unfold convert_mp4_to_audio, ret, read_file, emit, lift, log. cbn [fs trace tmp_candidates].
  rewrite lookup_insert_eq. cbn [fs trace tmp_candidates].
  rewrite <- !app_assoc. cbn [app].
  fold linear16_en_US.
  destruct (recognize _ _ _) as [response|e]; [|reflexivity].
  destruct (comprehension _ _) as [texts|e]; reflexivity.
Qed.

Lemma comprehension_top_transcript (rs : list SpeechRecognitionResult) :
  List.Forall (fun r => alternatives r <> []) rs ->
  comprehension top_transcript rs = Ok (List.map top_of rs).
Proof.
  induction 1 as [|r rs Hr _ IH]; [reflexivity|].
  cbn [comprehension List.map]. rewrite IH.
  unfold top_transcript, top_of. destruct (alternatives r); [contradiction|reflexivity].
Qed.

(** ** [assist], step by step *)

Lemma assist_falsy self session query w :
  truthy (dict_get (attachments query) "mp4_file") = false ->
  run (assist self session query) w =
  (Ok tt, log (EmitTextBlock "ERROR" "No MP4 file provided.") w).
Proof.
  intros H. unfold run, assist, await. rewrite H. reflexivity.
Qed.

(** With a video attached, [assist] ends where [transcribe_video] raises, or
    else at the [await] of the generator object. *)
Lemma assist_truthy self session query w :
  truthy (dict_get (attachments query) "mp4_file") = true ->
  run (assist self session query) w =
  match run (transcribe_video self (dict_get (attachments query) "mp4_file"))
            (log (EmitTextBlock "PROCESSING" "Processing MP4 file...") w) with
  | (Ok transcription, w') =>
      (Raise (TypeError "object async_generator can't be used in 'await' expression"), w')
  | (Raise e, w') => (Raise e, w')
  end.
Proof.
  intros H. unfold run at 1. unfold assist, await at 1. rewrite H. cbn [negb].
  unfold bind at 1. unfold await at 1, response_handler.emit_text_block, emit.
  unfold bind at 1. unfold run.
  destruct (await (transcribe_video _ _) _) as [[t|e] w']; [|reflexivity].
  unfold bind. unfold summarize_text, await at 1, raise. reflexivity.
Qed.

(** The events a run of [transcribe_video] adds to the trace: none when no
    temporary file could be made, else one file creation, one read and one
    request to the speech service. *)
Lemma transcribe_video_trace self mp4_file w r w' :
  run (transcribe_video self mp4_file) w = (r, w') ->
  trace w' = trace w \/
  exists n, trace w' = trace w ++ [CreateTempFile n; ReadFile n;
                                   Recognize linear16_en_US {| content := [] |}].
Proof.
  rewrite transcribe_video_run.
  destruct (first_unused _ _) as [[n rest]|].
  - cbv zeta. intros H. right. exists n.
    destruct (recognize _ _ _) as [response|e].
    + destruct (comprehension _ _); inversion H; reflexivity.
    + inversion H; reflexivity.
  - intros H. left. inversion H. reflexivity.
Qed.

Lemma transcribe_video_observations self mp4_file w r w' :
  run (transcribe_video self mp4_file) w = (r, w') ->
  blocks (trace w') = blocks (trace w) /\
  List.filter is_model_traffic (trace w') = List.filter is_model_traffic (trace w) /\
  length (List.filter is_recognize (trace w')) <= S (length (List.filter is_recognize (trace w))).
Proof.
  intros H. destruct (transcribe_video_trace _ _ _ _ _ H) as [E|[n E]]; rewrite E.
  - repeat split; lia.
  - unfold blocks. rewrite !List.filter_app. cbn [List.filter is_block is_model_traffic is_recognize].
    rewrite !app_nil_r, length_app. cbn [length]. repeat split; lia.
Qed.

(** With a video attached, [assist] always ends in an exception, having
    emitted the "PROCESSING" block and nothing else. *)
Lemma assist_with_video_raises self session query w :
  truthy (dict_get (attachments query) "mp4_file") = true ->
  exists e w',
    run (assist self session query) w = (Raise e, w') /\
    blocks (trace w') =
      blocks (trace w) ++ [EmitTextBlock "PROCESSING" "Processing MP4 file..."] /\
    List.filter is_model_traffic (trace w') = List.filter is_model_traffic (trace w).
Proof.
  intros H. rewrite (assist_truthy _ _ _ _ H).
  destruct (run (transcribe_video _ _) _) as [r w'] eqn:E.
  destruct (transcribe_video_observations _ _ _ _ _ E) as (Hb & Hm & _).
  unfold log in Hb, Hm. cbn [trace] in Hb, Hm.
  rewrite blocks_app in Hb. rewrite List.filter_app in Hm.
  cbn [blocks List.filter is_block is_model_traffic] in Hb, Hm.
  rewrite app_nil_r in Hm.
  destruct r as [t|e]; eexists; eexists; (split; [reflexivity|split; assumption]).
Qed.

(** * The agent's contract *)

(** C1 (the code departs from it): with a truthy "mp4_file" attachment,
    [assist] is written to emit "PROCESSING", "TRANSCRIPTION", "SUMMARY" and
    then the completion signal.  Run on a query carrying the attachment
    ["video.mp4"], with a speech service that answers with the two segments
    "hello" and "world", it emits "PROCESSING", transcribes, and then stops
    with a [TypeError] at [await self.summarize_text(transcription)]: the
    "TRANSCRIPTION" and "SUMMARY" blocks and the completion signal are never
    emitted. *)
Theorem assist_with_video_stops_at_await :
  run (assist Doubles.agent Doubles.session Doubles.query_with_video) Doubles.world =
  (Raise (TypeError "object async_generator can't be used in 'await' expression"),
   {| fs := {[ "/tmp/tmp0a1b2c" := [] ]};
      tmp_candidates := ["/tmp/tmp3d4e5f"];
      trace := [EmitTextBlock "PROCESSING" "Processing MP4 file...";
                CreateTempFile "/tmp/tmp0a1b2c";
                ReadFile "/tmp/tmp0a1b2c";
                Recognize linear16_en_US {| content := [] |}] |}).
Proof. vm_compute. reflexivity. Qed.

(** C2 (the code departs from it): step 4 of [assist] is written to bind
    to [summary] what [summarize_text(transcription)] gives, and step 6 to
    emit it inside the "SUMMARY" JSON block.  Run on the query carrying
    ["video.mp4"], with the speech service answering "hello" and "world":
    the transcription step returns a transcript; [summarize_text] applied to
    it gives the generator object, not yet started; awaiting that object is
    what ends [assist], with a [TypeError] and in the world the
    transcription left; so nothing is bound to [summary], and no "SUMMARY"
    block (nor any JSON block) is emitted, whatever its payload. *)
Theorem summary_generator_never_emitted :
  let w1 := log (EmitTextBlock "PROCESSING" "Processing MP4 file...") Doubles.world in
  exists transcription w2,
    run (transcribe_video Doubles.agent (PyStr "video.mp4")) w1 = (Ok transcription, w2) /\
    summarize_text Doubles.agent transcription =
      async_generator (GenCreated Doubles.agent transcription) /\
    run (summarize_text Doubles.agent transcription) w2 =
      (Raise (TypeError "object async_generator can't be used in 'await' expression"), w2) /\
    run (assist Doubles.agent Doubles.session Doubles.query_with_video) Doubles.world =
      (Raise (TypeError "object async_generator can't be used in 'await' expression"), w2) /\
    (forall label payload, ~ List.In (EmitJson label payload) (trace w2)) /\
    ~ List.In Complete (trace w2).
Proof.
  intros w1. eexists. eexists.
  split; [vm_compute; reflexivity|].
  split; [reflexivity|].
  split; [reflexivity|].
  split; [vm_compute; reflexivity|].
  split.
  - intros label payload H. cbn [trace List.In] in H.
    repeat (destruct H as [H|H]; [discriminate H|]). exact H.
  - intros H. cbn [trace List.In] in H.
    repeat (destruct H as [H|H]; [discriminate H|]). exact H.
Qed.

(** C3: when the attachments have no entry under "mp4_file", [assist]
    returns normally and the only thing it did is to emit the "ERROR" text
    block "No MP4 file provided.": the trace grows by that single event (no
    temporary file, no request to the speech service or to the model
    provider, no other block, no completion signal) and the files are
    untouched. *)
Theorem assist_without_mp4_file self session query w :
  attachments query !! "mp4_file" = None ->
  run (assist self session query) w =
  (Ok tt, with_trace w [EmitTextBlock "ERROR" "No MP4 file provided."]).
Proof.
  intros H. apply assist_falsy. unfold dict_get. rewrite H. reflexivity.
Qed.

Lemma assist_without_mp4_file_witness :
  run (assist Doubles.agent Doubles.session Doubles.query_without_video) Doubles.world =
  (Ok tt, with_trace Doubles.world [EmitTextBlock "ERROR" "No MP4 file provided."]).
Proof.
  apply (assist_without_mp4_file Doubles.agent Doubles.session
           Doubles.query_without_video Doubles.world).
  vm_compute. reflexivity.
Defined.

(** C9: the guard of [assist] tests falsiness: when "mp4_file" is present
    but maps to a falsy value, [assist] does what it does for a query
    without the key: it emits the "ERROR" block, and nothing else, and
    returns. *)
Theorem assist_falsy_mp4_file self session query v w :
  attachments query !! "mp4_file" = Some v ->
  truthy v = false ->
  run (assist self session query) w =
    (Ok tt, with_trace w [EmitTextBlock "ERROR" "No MP4 file provided."]) /\
  run (assist self session query) w =
    run (assist self session {| attachments := delete "mp4_file" (attachments query) |}) w.
Proof.
  intros H Hv.
  assert (E : run (assist self session query) w =
              (Ok tt, with_trace w [EmitTextBlock "ERROR" "No MP4 file provided."])).
  { apply assist_falsy. unfold dict_get. rewrite H. exact Hv. }
  split; [exact E|]. rewrite E. symmetry.
  apply assist_falsy. unfold dict_get. cbn [attachments].
  rewrite lookup_delete_eq. reflexivity.
Qed.

Lemma assist_falsy_mp4_file_witness :
  run (assist Doubles.agent Doubles.session Doubles.query_empty_video) Doubles.world =
    (Ok tt, with_trace Doubles.world [EmitTextBlock "ERROR" "No MP4 file provided."]) /\
  run (assist Doubles.agent Doubles.session Doubles.query_empty_video) Doubles.world =
    run (assist Doubles.agent Doubles.session
           {| attachments := delete "mp4_file" (attachments Doubles.query_empty_video) |})
        Doubles.world.
Proof.
  apply (assist_falsy_mp4_file Doubles.agent Doubles.session Doubles.query_empty_video
           (PyStr "") Doubles.world).
  - vm_compute. reflexivity.
  - reflexivity.
Defined.

(** Python's ["\n".join] puts exactly one line feed between neighbours. *)
Lemma join_NL_newline_joined (l : list string) : join NL l = newline_joined l.
Proof.
  induction l as [|x rest IH]; [reflexivity|].
  destruct rest as [|y rest]; [reflexivity|].
  change (join NL (x :: y :: rest))
    with (x +:+ String (Ascii.Ascii false true false true false false false false)
                       (join NL (y :: rest))).
  rewrite IH. reflexivity.
Qed.

(** C4: [transcribe_video] returns the first alternative's transcript of
    each recognition result, in the order of the service's answer, with one
    line feed between each two neighbours (given that the temporary file can
    be made, that the service answers the request, and that every result has
    an alternative). *)
Theorem transcribe_video_joins_top_alternatives self mp4_file w n rest response :
  first_unused (fs w) (tmp_candidates w) = Some (n, rest) ->
  recognize (_speech_client self) linear16_en_US {| content := [] |} = Ok response ->
  List.Forall (fun r => alternatives r <> []) (results response) ->
  fst (run (transcribe_video self mp4_file) w) =
  Ok (newline_joined (List.map top_of (results response))).
Proof.
  intros Htmp Hrec Halt. rewrite transcribe_video_run, Htmp. cbv zeta.
  rewrite Hrec, (comprehension_top_transcript _ Halt), join_NL_newline_joined.
  reflexivity.
Qed.

(** For the service answering with the segments "hello" and "world", the
    transcript is "hello", a line feed, "world": the literal below, broken
    by that line feed. *)
Lemma transcribe_video_joins_top_alternatives_witness :
  fst (run (transcribe_video Doubles.agent (PyStr "video.mp4")) Doubles.world) =
  Ok "hello
world".
Proof.
  apply (transcribe_video_joins_top_alternatives Doubles.agent (PyStr "video.mp4")
           Doubles.world "/tmp/tmp0a1b2c" ["/tmp/tmp3d4e5f"] Doubles.two_segments).
  - vm_compute. reflexivity.
  - reflexivity.
  - repeat constructor; discriminate.
Defined.

(** C7: [convert_mp4_to_audio] does nothing, whatever the two paths: it
    returns and the world is as it was.  So in [transcribe_video] the file
    it was to fill is still as [NamedTemporaryFile] made it: the content
    read back, and sent to the speech service, is empty. *)
Theorem convert_mp4_to_audio_is_noop self mp4_file output_audio_path w :
  convert_mp4_to_audio self mp4_file output_audio_path w = (Ok tt, w) /\
  forall n rest,
    first_unused (fs w) (tmp_candidates w) = Some (n, rest) ->
    let w' := snd (run (transcribe_video self mp4_file) w) in
    fs w' !! n = Some [] /\
    trace w' = trace w ++ [CreateTempFile n; ReadFile n;
                           Recognize linear16_en_US {| content := [] |}].
Proof.
  split; [reflexivity|].
  intros n rest Htmp. rewrite transcribe_video_run, Htmp. cbv zeta.
  destruct (recognize _ _ _) as [response|e];
    [destruct (comprehension _ _)|]; cbn [snd fs trace];
    (split; [apply lookup_insert_eq|reflexivity]).
Qed.

Lemma convert_mp4_to_audio_is_noop_witness :
  let w' := snd (run (transcribe_video Doubles.agent (PyStr "video.mp4")) Doubles.world) in
  fs w' !! "/tmp/tmp0a1b2c" = Some [] /\
  trace w' = [CreateTempFile "/tmp/tmp0a1b2c"; ReadFile "/tmp/tmp0a1b2c";
              Recognize linear16_en_US {| content := [] |}].
Proof.
  apply (proj2 (convert_mp4_to_audio_is_noop Doubles.agent (PyStr "video.mp4")
                  "/tmp/tmp0a1b2c" Doubles.world) "/tmp/tmp0a1b2c" ["/tmp/tmp3d4e5f"]).
  vm_compute. reflexivity.
Defined.

(** C8: with a video attached, an exception raised by the transcription
    step or by the summarization step leaves [assist] as it is: [assist]
    ends with that exception, in the world the failing step left.  The only
    block emitted is "PROCESSING" (no "TRANSCRIPTION", no "SUMMARY", no
    completion signal), and nothing is tried again: at most one request went
    to the speech service and none to the model provider. *)
Theorem assist_propagates_step_failures self session query w :
  truthy (dict_get (attachments query) "mp4_file") = true ->
  let mp4_file := dict_get (attachments query) "mp4_file" in
  let w1 := log (EmitTextBlock "PROCESSING" "Processing MP4 file...") w in
  let aborted e w' :=
    run (assist self session query) w = (Raise e, w') /\
    blocks (trace w') =
      blocks (trace w) ++ [EmitTextBlock "PROCESSING" "Processing MP4 file..."] /\
    length (List.filter is_recognize (trace w')) <=
      S (length (List.filter is_recognize (trace w))) /\
    List.filter is_model_traffic (trace w') = List.filter is_model_traffic (trace w) in
  (forall e w2,
      run (transcribe_video self mp4_file) w1 = (Raise e, w2) -> aborted e w2) /\
  (forall transcription w2 e w3,
      run (transcribe_video self mp4_file) w1 = (Ok transcription, w2) ->
      run (summarize_text self transcription) w2 = (Raise e, w3) -> aborted e w3).
Proof.
  intros H mp4_file w1 aborted.
  assert (Hobs : forall r w2, run (transcribe_video self mp4_file) w1 = (r, w2) ->
            blocks (trace w2) =
              blocks (trace w) ++ [EmitTextBlock "PROCESSING" "Processing MP4 file..."] /\
            length (List.filter is_recognize (trace w2)) <=
              S (length (List.filter is_recognize (trace w))) /\
            List.filter is_model_traffic (trace w2) = List.filter is_model_traffic (trace w)).
  { intros r w2 E.
    destruct (transcribe_video_observations _ _ _ _ _ E) as (Hb & Hm & Hr).
    subst w1. unfold log in Hb, Hm, Hr. cbn [trace] in Hb, Hm, Hr.
    rewrite blocks_app in Hb. rewrite List.filter_app in Hm, Hr.
    cbn [blocks List.filter is_block is_model_traffic is_recognize] in Hb, Hm, Hr.
    rewrite app_nil_r in Hm, Hr. auto. }
  split.
  - intros e w2 E. unfold aborted. split; [|exact (Hobs _ _ E)].
    rewrite (assist_truthy _ _ _ _ H). fold mp4_file w1. rewrite E. reflexivity.
  - intros transcription w2 e w3 E Es. unfold aborted.
    unfold run, summarize_text, await, raise in Es. inversion Es; subst.
    split; [|exact (Hobs _ _ E)].
    rewrite (assist_truthy _ _ _ _ H). fold mp4_file w1. rewrite E. reflexivity.
Qed.

(** The speech service is down: [assist] ends with the service's error,
    after "PROCESSING" and a single request. *)
Lemma assist_propagates_step_failures_witness :
  run (assist Doubles.agent_speech_down Doubles.session Doubles.query_with_video)
      Doubles.world =
  (Raise (ServiceError "speech service unavailable"),
   {| fs := {[ "/tmp/tmp0a1b2c" := [] ]};
      tmp_candidates := ["/tmp/tmp3d4e5f"];
      trace := [EmitTextBlock "PROCESSING" "Processing MP4 file...";
                CreateTempFile "/tmp/tmp0a1b2c";
                ReadFile "/tmp/tmp0a1b2c";
                Recognize linear16_en_US {| content := [] |}] |}).
Proof.
  apply (proj1 (assist_propagates_step_failures Doubles.agent_speech_down Doubles.session
                  Doubles.query_with_video Doubles.world eq_refl)).
  vm_compute. reflexivity.
Defined.

(** ** The constructor *)

Lemma with_trace_nil w : with_trace w [] = w.
Proof. destruct w as [f c t]. unfold with_trace. cbn. now rewrite app_nil_r. Qed.

Lemma str_truthy_Some v : v <> "" -> str_truthy (Some v) = true.
Proof.
  intros H. cbn. destruct (String.eqb v "") eqn:E; [|reflexivity].
  apply String.eqb_eq in E. contradiction.
Qed.

(** C5, as stated, fails: with MODEL_API_KEY set and TAVILY_API_KEY unset,
    the configuration error comes after the ModelProvider was created. *)
Lemma config_error_after_model_provider :
  unset Doubles.env_model_only "TAVILY_API_KEY" /\
  ~ exists msg w',
      __init__ Doubles.new_ModelProvider Doubles.new_SearchProvider Doubles.new_SpeechClient
        Doubles.env_model_only "Video Processing Agent" Doubles.world =
        (Raise (ValueError msg), w') /\
      trace w' = trace Doubles.world.
Proof.
  split; [vm_compute; reflexivity|].
  intros (msg & w' & E & Ht). vm_compute in E. inversion E; subst w'.
  discriminate Ht.
Qed.

(** C5 (amended): when one of MODEL_API_KEY, TAVILY_API_KEY and
    GOOGLE_CLOUD_SPEECH_API_KEY is unset or empty, the constructor raises
    the configuration error naming the first such variable (the clients
    constructed before that check having been constructed).  The error comes
    before the client that this variable configures, and every later one, is
    created: the clients created are those of the variables before it, so
    none for MODEL_API_KEY, the ModelProvider for TAVILY_API_KEY, the
    ModelProvider and the SearchProvider for GOOGLE_CLOUD_SPEECH_API_KEY;
    the speech client is never created. *)
Theorem config_error_before_dependent_clients
    new_ModelProvider new_SearchProvider new_SpeechClient environ name w i var :
  first_unset environ = Some (i, var) ->
  (1 <= i -> exists mp, new_ModelProvider (as_str (environ !! "MODEL_API_KEY")) = Ok mp) ->
  (2 <= i -> exists sp, new_SearchProvider (as_str (environ !! "TAVILY_API_KEY")) = Ok sp) ->
  __init__ new_ModelProvider new_SearchProvider new_SpeechClient environ name w =
    (Raise (ValueError (var +:+ " is not set")),
     with_trace w (take i (clients environ))) /\
  i < 3.
Proof.
  intros Hfind Hmp Hsp. unfold first_unset, required_vars in Hfind.
  unfold __init__.
  destruct (str_truthy (environ !! "MODEL_API_KEY")) eqn:E1.
  2:{ cbn in Hfind. rewrite E1 in Hfind. cbn in Hfind. inversion Hfind; subst.
      split; [|lia]. cbn [negb take]. rewrite with_trace_nil. reflexivity. }
  destruct (str_truthy (environ !! "TAVILY_API_KEY")) eqn:E2.
  2:{ cbn in Hfind. rewrite E1, E2 in Hfind. cbn in Hfind. inversion Hfind; subst.
      split; [|lia]. destruct Hmp as [mp Hmp]; [lia|].
      cbn [negb]. unfold bind, construct. rewrite Hmp. reflexivity. }
  destruct (str_truthy (environ !! "GOOGLE_CLOUD_SPEECH_API_KEY")) eqn:E3.
  2:{ cbn in Hfind. rewrite E1, E2, E3 in Hfind. cbn in Hfind. inversion Hfind; subst.
      split; [|lia]. destruct Hmp as [mp Hmp]; [lia|]. destruct Hsp as [sp Hsp]; [lia|].
      cbn [negb]. unfold bind, construct. rewrite Hmp, Hsp.
      unfold raise, with_trace, log. cbn [fs tmp_candidates trace take clients].
      rewrite <- app_assoc. reflexivity. }
  cbn in Hfind. rewrite E1, E2, E3 in Hfind. cbn in Hfind. discriminate Hfind.
Qed.

Lemma config_error_before_dependent_clients_witness :
  __init__ Doubles.new_ModelProvider Doubles.new_SearchProvider Doubles.new_SpeechClient
    Doubles.env_no_speech_key "Video Processing Agent" Doubles.world =
    (Raise (ValueError "GOOGLE_CLOUD_SPEECH_API_KEY is not set"),
     with_trace Doubles.world [NewModelProvider "sk-model"; NewSearchProvider "tvly"]) /\
  2 < 3.
Proof.
  apply (config_error_before_dependent_clients
           Doubles.new_ModelProvider Doubles.new_SearchProvider Doubles.new_SpeechClient
           Doubles.env_no_speech_key "Video Processing Agent" Doubles.world
           2 "GOOGLE_CLOUD_SPEECH_API_KEY").
  - vm_compute. reflexivity.
  - intros _. eexists. reflexivity.
  - intros _. eexists. reflexivity.
Defined.

(** C10: the value of GOOGLE_CLOUD_SPEECH_API_KEY matters to the constructor
    only through its being non-empty: two runs that differ only in that
    value, both non-empty, have the same outcome (the same agent, or the
    same exception) and leave the same world, trace of created clients
    included. *)
Theorem speech_key_value_is_irrelevant
    new_ModelProvider new_SearchProvider new_SpeechClient environ name w v1 v2 :
  v1 <> "" -> v2 <> "" ->
  __init__ new_ModelProvider new_SearchProvider new_SpeechClient
    (<["GOOGLE_CLOUD_SPEECH_API_KEY" := v1]> environ) name w =
  __init__ new_ModelProvider new_SearchProvider new_SpeechClient
    (<["GOOGLE_CLOUD_SPEECH_API_KEY" := v2]> environ) name w.
Proof.
  intros H1 H2. unfold __init__.
  rewrite !lookup_insert_eq.
  rewrite !(lookup_insert_ne _ "GOOGLE_CLOUD_SPEECH_API_KEY" "MODEL_API_KEY") by discriminate.
  rewrite !(lookup_insert_ne _ "GOOGLE_CLOUD_SPEECH_API_KEY" "TAVILY_API_KEY") by discriminate.
  rewrite (str_truthy_Some _ H1), (str_truthy_Some _ H2). reflexivity.
Qed.

Lemma speech_key_value_is_irrelevant_witness :
  __init__ Doubles.new_ModelProvider Doubles.new_SearchProvider Doubles.new_SpeechClient
    (<["GOOGLE_CLOUD_SPEECH_API_KEY" := "key-one"]> Doubles.env_no_speech_key)
    "Video Processing Agent" Doubles.world =
  __init__ Doubles.new_ModelProvider Doubles.new_SearchProvider Doubles.new_SpeechClient
    (<["GOOGLE_CLOUD_SPEECH_API_KEY" := "another-key"]> Doubles.env_no_speech_key)
    "Video Processing Agent" Doubles.world.
Proof.
  apply (speech_key_value_is_irrelevant
           Doubles.new_ModelProvider Doubles.new_SearchProvider Doubles.new_SpeechClient
           Doubles.env_no_speech_key "Video Processing Agent" Doubles.world
           "key-one" "another-key"); discriminate.
Defined.

(** ** The generator of [summarize_text] *)

(** Driving a generator suspended in its loop: each turn asks the provider
    for one fragment and hands it on at once. *)
Lemma async_for_suspended fuel : forall rest fin w,
  let d := async_for fuel (GenSuspended rest fin) w in
  chunks d = take fuel rest /\
  trace (world_after d) = trace w ++ replicate (fuel `min` S (length rest)) StreamNext /\
  (length rest < fuel -> ending d = Some fin /\ gen_after d = GenFinished).
Proof.
  induction fuel as [|fuel IH]; intros rest fin w; cbv zeta.
  - cbn. rewrite app_nil_r. repeat split; lia.
  - destruct rest as [|chunk rest].
    + replace (S fuel `min` S (length (@nil string))) with 1 by (cbn [length]; lia).
      cbn [async_for anext stream_next].
      destruct fin as [e|]; cbn; repeat split; reflexivity.
    + replace (S fuel `min` S (length (chunk :: rest)))
        with (S (fuel `min` S (length rest))) by (cbn [length]; lia).
      cbn [async_for anext stream_next chunks ending gen_after world_after].
      destruct (IH rest fin (log StreamNext w)) as (Hc & Ht & He).
      cbv zeta in Hc, Ht, He. rewrite Hc, Ht.
      repeat split.
      * cbn [log trace replicate]. rewrite <- app_assoc. reflexivity.
      * apply He. cbn [length] in *. lia.
      * apply He. cbn [length] in *. lia.
Qed.

(** The first turn starts the body: the prompt is built and sent, and the
    loop is entered. *)
Lemma async_for_created fuel self text w :
  async_for (S fuel) (GenCreated self text) w =
  async_for (S fuel)
    (GenSuspended (fragments (query_stream (_model_provider self) (summary_prompt text)))
                  (failure (query_stream (_model_provider self) (summary_prompt text))))
    (log (QueryStream (summary_prompt text)) w).
Proof. reflexivity. Qed.

(** C6: [summarize_text] yields the fragments of the provider's stream for
    its prompt, in the provider's order, each once.  Driven to its end, the
    generator has yielded exactly the stream's fragments and ends as the
    stream ends; the provider was queried once and asked for one fragment at
    a time; asked again, the finished generator yields nothing (no replay).
    After [k] fragments have been consumed, exactly the first [k] fragments
    have been yielded and exactly [k] were requested (no buffering). *)
Theorem summarize_text_yields_provider_fragments self text w fuel :
  let s := query_stream (_model_provider self) (summary_prompt text) in
  length (fragments s) < fuel ->
  exists g,
    summarize_text self text = async_generator g /\
    let d := async_for fuel g w in
    chunks d = fragments s /\
    ending d = Some (failure s) /\
    trace (world_after d) =
      trace w ++ QueryStream (summary_prompt text)
                 :: replicate (S (length (fragments s))) StreamNext /\
    (forall w', anext (gen_after d) w' = (StopAsyncIteration, GenFinished, w')) /\
    (forall k, 0 < k <= length (fragments s) ->
       let dk := async_for k g w in
       chunks dk = take k (fragments s) /\
       trace (world_after dk) =
         trace w ++ QueryStream (summary_prompt text) :: replicate k StreamNext).
Proof.
  intros s Hfuel. exists (GenCreated self text). split; [reflexivity|].
  cbv zeta. destruct fuel as [|fuel]; [lia|].
  rewrite async_for_created. fold s.
  destruct (async_for_suspended (S fuel) (fragments s) (failure s)
              (log (QueryStream (summary_prompt text)) w)) as (Hc & Ht & He).
  cbv zeta in Hc, Ht, He. destruct (He Hfuel) as [He1 He2].
  repeat split.
  - rewrite Hc. apply take_ge. lia.
  - exact He1.
  - rewrite Ht. cbn [log trace]. rewrite <- app_assoc.
    replace (S fuel `min` S (length (fragments s))) with (S (length (fragments s))) by lia.
    reflexivity.
  - intros w'. rewrite He2. reflexivity.
  - destruct k as [|k]; [lia|]. rewrite async_for_created. fold s.
    apply (async_for_suspended (S k) (fragments s) (failure s)).
  - destruct k as [|k]; [lia|]. rewrite async_for_created. fold s.
    destruct (async_for_suspended (S k) (fragments s) (failure s)
                (log (QueryStream (summary_prompt text)) w)) as (_ & Htk & _).
    cbv zeta in Htk. rewrite Htk. cbn [log trace]. rewrite <- app_assoc.
    replace (S k `min` S (length (fragments s))) with (S k) by lia.
    reflexivity.
Qed.

(** For a provider streaming "A", "B", "C": exactly "A", "B", "C", once. *)
Lemma summarize_text_yields_provider_fragments_witness :
  exists g,
    summarize_text Doubles.agent "hello" = async_generator g /\
    let d := async_for 5 g Doubles.world in
    chunks d = ["A"; "B"; "C"] /\
    ending d = Some None /\
    trace (world_after d) =
      [QueryStream (summary_prompt "hello"); StreamNext; StreamNext; StreamNext; StreamNext] /\
    (forall w', anext (gen_after d) w' = (StopAsyncIteration, GenFinished, w')) /\
    (forall k, 0 < k <= 3 ->
       let dk := async_for k g Doubles.world in
       chunks dk = take k ["A"; "B"; "C"] /\
       trace (world_after dk) =
         QueryStream (summary_prompt "hello") :: replicate k StreamNext).
Proof.
  apply (summarize_text_yields_provider_fragments Doubles.agent "hello" Doubles.world 5).
  cbn. lia.
Defined.

(** * Further properties of the code *)

(** ** The constructor, case by case *)

(** The whole run of the constructor: each variable is read and tested just
    before the client it configures is built. *)
Lemma init_run new_ModelProvider new_SearchProvider new_SpeechClient environ name w :
  __init__ new_ModelProvider new_SearchProvider new_SpeechClient environ name w =
  if negb (str_truthy (environ !! "MODEL_API_KEY")) then
    (Raise (ValueError "MODEL_API_KEY is not set"), w)
  else
    match new_ModelProvider (as_str (environ !! "MODEL_API_KEY")) with
    | Raise e => (Raise e, w)
    | Ok mp =>
        if negb (str_truthy (environ !! "TAVILY_API_KEY")) then
          (Raise (ValueError "TAVILY_API_KEY is not set"), with_trace w (take 1 (clients environ)))
        else
          match new_SearchProvider (as_str (environ !! "TAVILY_API_KEY")) with
          | Raise e => (Raise e, with_trace w (take 1 (clients environ)))
          | Ok sp =>
              if negb (str_truthy (environ !! "GOOGLE_CLOUD_SPEECH_API_KEY")) then
                (Raise (ValueError "GOOGLE_CLOUD_SPEECH_API_KEY is not set"),
                 with_trace w (take 2 (clients environ)))
              else
                match new_SpeechClient with
                | Raise e => (Raise e, with_trace w (take 2 (clients environ)))
                | Ok sc =>
                    (Ok {| name := name; _model_provider := mp;
                           _search_provider := sp; _speech_client := sc |},
                     with_trace w (clients environ))
                end
          end
    end.
Proof.
  unfold __init__.
  destruct (str_truthy (environ !! "MODEL_API_KEY")); [|reflexivity]. cbn [negb].
  unfold bind at 1. unfold construct at 1.
  destruct (new_ModelProvider _) as [mp|e]; [|reflexivity].
  destruct (str_truthy (environ !! "TAVILY_API_KEY")); [|reflexivity]. cbn [negb].
  unfold bind at 1. unfold construct at 1.
  destruct (new_SearchProvider _) as [sp|e]; [|reflexivity].
  destruct (str_truthy (environ !! "GOOGLE_CLOUD_SPEECH_API_KEY")); cbn [negb].
  - unfold bind, construct, ret.
    destruct new_SpeechClient as [sc|e]; unfold with_trace, log, clients;
      cbn [fs tmp_candidates trace take]; rewrite <- ?app_assoc; reflexivity.
  - unfold raise, with_trace, log, clients. cbn [fs tmp_candidates trace take].
    rewrite <- app_assoc. reflexivity.
Qed.

(** X1: with the three variables set and non-empty, and the three client
    constructors returning, the constructor returns the agent that carries
    the given name and exactly those clients: the ModelProvider built from
    MODEL_API_KEY, the SearchProvider built from TAVILY_API_KEY and the
    speech client, created in this order and nothing else done. *)
Theorem init_builds_agent_from_environment
    new_ModelProvider new_SearchProvider new_SpeechClient environ name w k1 k2 k3 mp sp sc :
  environ !! "MODEL_API_KEY" = Some k1 -> k1 <> "" ->
  environ !! "TAVILY_API_KEY" = Some k2 -> k2 <> "" ->
  environ !! "GOOGLE_CLOUD_SPEECH_API_KEY" = Some k3 -> k3 <> "" ->
  new_ModelProvider k1 = Ok mp ->
  new_SearchProvider k2 = Ok sp ->
  new_SpeechClient = Ok sc ->
  __init__ new_ModelProvider new_SearchProvider new_SpeechClient environ name w =
  (Ok {| name := name; _model_provider := mp; _search_provider := sp; _speech_client := sc |},
   with_trace w [NewModelProvider k1; NewSearchProvider k2; NewSpeechClient]).
Proof.
  intros E1 N1 E2 N2 E3 N3 Hmp Hsp Hsc. rewrite init_run.
  unfold clients. rewrite E1, E2, E3.
  rewrite !str_truthy_Some by assumption.
  change (as_str (Some k1)) with k1. change (as_str (Some k2)) with k2.
  cbn [negb]. rewrite Hmp, Hsp, Hsc. reflexivity.
Qed.

Lemma init_builds_agent_from_environment_witness :
  __init__ Doubles.new_ModelProvider Doubles.new_SearchProvider Doubles.new_SpeechClient
    MoreDoubles.env_complete "Video Processing Agent" Doubles.world =
  (Ok {| name := "Video Processing Agent";
         _model_provider := {| model_api_key := "sk-model";
                               query_stream := query_stream Doubles.model_abc |};
         _search_provider := {| search_api_key := "tvly" |};
         _speech_client := Doubles.speech_hello_world |},
   with_trace Doubles.world
     [NewModelProvider "sk-model"; NewSearchProvider "tvly"; NewSpeechClient]).
Proof.
  apply (init_builds_agent_from_environment
           Doubles.new_ModelProvider Doubles.new_SearchProvider Doubles.new_SpeechClient
           MoreDoubles.env_complete "Video Processing Agent" Doubles.world
           "sk-model" "tvly" "g-key");
    try discriminate; try reflexivity; vm_compute; reflexivity.
Defined.

(** X2: the constructor returns an agent only when none of the three
    variables is unset or empty.  The agent it returns has the given name
    and the clients the constructors returned for the values of
    MODEL_API_KEY and TAVILY_API_KEY, and the world differs by the three
    creations only. *)
Theorem init_returns_only_when_configured
    new_ModelProvider new_SearchProvider new_SpeechClient environ agent_name w agent w' :
  __init__ new_ModelProvider new_SearchProvider new_SpeechClient environ agent_name w
    = (Ok agent, w') ->
  first_unset environ = None /\
  name agent = agent_name /\
  new_ModelProvider (as_str (environ !! "MODEL_API_KEY")) = Ok (_model_provider agent) /\
  new_SearchProvider (as_str (environ !! "TAVILY_API_KEY")) = Ok (_search_provider agent) /\
  new_SpeechClient = Ok (_speech_client agent) /\
  w' = with_trace w (clients environ).
Proof.
  rewrite init_run. unfold first_unset, required_vars.
  destruct (str_truthy (environ !! "MODEL_API_KEY")) eqn:E1; cbn [negb]; [|discriminate].
  destruct (new_ModelProvider _) as [mp|e]; [|discriminate].
  destruct (str_truthy (environ !! "TAVILY_API_KEY")) eqn:E2; cbn [negb]; [|discriminate].
  destruct (new_SearchProvider _) as [sp|e]; [|discriminate].
  destruct (str_truthy (environ !! "GOOGLE_CLOUD_SPEECH_API_KEY")) eqn:E3; cbn [negb];
    [|discriminate].
  destruct new_SpeechClient as [sc|e]; [|discriminate].
  intros H. inversion H; subst. cbn [name _model_provider _search_provider _speech_client].
  repeat split. cbn. rewrite E1. cbn. rewrite E2. cbn. rewrite E3. reflexivity.
Qed.

Lemma init_returns_only_when_configured_witness :
  first_unset MoreDoubles.env_complete = None /\
  name {| name := "Video Processing Agent";
          _model_provider := {| model_api_key := "sk-model";
                                query_stream := query_stream Doubles.model_abc |};
          _search_provider := {| search_api_key := "tvly" |};
          _speech_client := Doubles.speech_hello_world |} = "Video Processing Agent" /\
  Doubles.new_ModelProvider (as_str (MoreDoubles.env_complete !! "MODEL_API_KEY")) =
    Ok {| model_api_key := "sk-model"; query_stream := query_stream Doubles.model_abc |} /\
  Doubles.new_SearchProvider (as_str (MoreDoubles.env_complete !! "TAVILY_API_KEY")) =
    Ok {| search_api_key := "tvly" |} /\
  Doubles.new_SpeechClient = Ok Doubles.speech_hello_world /\
  with_trace Doubles.world
    [NewModelProvider "sk-model"; NewSearchProvider "tvly"; NewSpeechClient] =
  with_trace Doubles.world (clients MoreDoubles.env_complete).
Proof.
  apply (init_returns_only_when_configured
           Doubles.new_ModelProvider Doubles.new_SearchProvider Doubles.new_SpeechClient
           MoreDoubles.env_complete "Video Processing Agent" Doubles.world).
  vm_compute. reflexivity.
Defined.

(** X3: an exception of a client constructor leaves the constructor as it
    is, with the clients created so far and no later step taken: a failing
    ModelProvider constructor ends it before TAVILY_API_KEY is even read
    (so it wins over a missing TAVILY_API_KEY), a failing SearchProvider
    constructor after the ModelProvider alone was created, and a failing
    speech client constructor after both providers were created. *)
Theorem init_propagates_constructor_failure
    new_ModelProvider new_SearchProvider new_SpeechClient environ agent_name w e :
  (str_truthy (environ !! "MODEL_API_KEY") = true ->
   new_ModelProvider (as_str (environ !! "MODEL_API_KEY")) = Raise e ->
   __init__ new_ModelProvider new_SearchProvider new_SpeechClient environ agent_name w =
     (Raise e, w)) /\
  (forall mp,
   str_truthy (environ !! "MODEL_API_KEY") = true ->
   new_ModelProvider (as_str (environ !! "MODEL_API_KEY")) = Ok mp ->
   str_truthy (environ !! "TAVILY_API_KEY") = true ->
   new_SearchProvider (as_str (environ !! "TAVILY_API_KEY")) = Raise e ->
   __init__ new_ModelProvider new_SearchProvider new_SpeechClient environ agent_name w =
     (Raise e, with_trace w [NewModelProvider (as_str (environ !! "MODEL_API_KEY"))])) /\
  (forall mp sp,
   str_truthy (environ !! "MODEL_API_KEY") = true ->
   new_ModelProvider (as_str (environ !! "MODEL_API_KEY")) = Ok mp ->
   str_truthy (environ !! "TAVILY_API_KEY") = true ->
   new_SearchProvider (as_str (environ !! "TAVILY_API_KEY")) = Ok sp ->
   str_truthy (environ !! "GOOGLE_CLOUD_SPEECH_API_KEY") = true ->
   new_SpeechClient = Raise e ->
   __init__ new_ModelProvider new_SearchProvider new_SpeechClient environ agent_name w =
     (Raise e, with_trace w [NewModelProvider (as_str (environ !! "MODEL_API_KEY"));
                             NewSearchProvider (as_str (environ !! "TAVILY_API_KEY"))])).
Proof.
  repeat split.
  - intros E1 Hmp. rewrite init_run, E1, Hmp. reflexivity.
  - intros mp E1 Hmp E2 Hsp. rewrite init_run, E1, Hmp, E2, Hsp. reflexivity.
  - intros mp sp E1 Hmp E2 Hsp E3 Hsc.
    rewrite init_run, E1, Hmp, E2, Hsp, E3, Hsc. reflexivity.
Qed.

Lemma init_propagates_constructor_failure_witness :
  __init__ Doubles.new_ModelProvider Doubles.new_SearchProvider MoreDoubles.no_credentials
    MoreDoubles.env_complete "Video Processing Agent" Doubles.world =
  (Raise (ServiceError "default credentials were not found"),
   with_trace Doubles.world [NewModelProvider "sk-model"; NewSearchProvider "tvly"]).
Proof.
  apply (proj2 (proj2 (init_propagates_constructor_failure
           Doubles.new_ModelProvider Doubles.new_SearchProvider MoreDoubles.no_credentials
           MoreDoubles.env_complete "Video Processing Agent" Doubles.world
           (ServiceError "default credentials were not found")))
           {| model_api_key := "sk-model"; query_stream := query_stream Doubles.model_abc |}
           {| search_api_key := "tvly" |});
    vm_compute; reflexivity.
Defined.

(** ** [transcribe_video]: files and edge cases *)

Lemma first_unused_fresh (files : gmap string bytes) names n rest :
  first_unused files names = Some (n, rest) -> files !! n = None.
Proof.
  induction names as [|c names IH]; cbn [first_unused]; [discriminate|].
  destruct (files !! c) eqn:E; [exact IH|].
  intros H. inversion H; subst. exact E.
Qed.

(** The files and the unused names after a run that could make its
    temporary file: that file, empty, was added and is still there. *)
Lemma transcribe_video_files self mp4_file w n rest :
  first_unused (fs w) (tmp_candidates w) = Some (n, rest) ->
  fs (snd (run (transcribe_video self mp4_file) w)) = <[n := []]> (fs w) /\
  tmp_candidates (snd (run (transcribe_video self mp4_file) w)) = rest.
Proof.
  intros Htmp. rewrite transcribe_video_run, Htmp. cbv zeta.
  destruct (recognize _ _ _) as [response|e];
    [destruct (comprehension _ _)|]; split; reflexivity.
Qed.

Lemma comprehension_top_transcript_gap (rs : list SpeechRecognitionResult) :
  List.Exists (fun r => alternatives r = []) rs ->
  comprehension top_transcript rs = Raise (IndexError "list index out of range").
Proof.
  induction 1 as [r rs Hr|r rs _ IH]; cbn [comprehension].
  - unfold top_transcript. rewrite Hr. reflexivity.
  - rewrite IH. unfold top_transcript. destruct (alternatives r); reflexivity.
Qed.

(** X4: the temporary audio file outlives the call ([delete=False] and no
    removal): whenever [transcribe_video] could make its temporary file,
    then after the call, whether it returned or raised, the file system is
    the one before plus that one new, empty file; every other file is
    untouched and the number of files has grown by one. *)
Theorem transcribe_video_leaves_temp_file self mp4_file w n rest :
  first_unused (fs w) (tmp_candidates w) = Some (n, rest) ->
  let w' := snd (run (transcribe_video self mp4_file) w) in
  fs w !! n = None /\
  fs w' = <[n := []]> (fs w) /\
  (forall p, p <> n -> fs w' !! p = fs w !! p) /\
  size (fs w') = S (size (fs w)).
Proof.
  intros Htmp w'. pose proof (first_unused_fresh _ _ _ _ Htmp) as Hfresh.
  destruct (transcribe_video_files self mp4_file w n rest Htmp) as [Hfs _].
  subst w'. rewrite Hfs. repeat split.
  - exact Hfresh.
  - intros p Hp. apply lookup_insert_ne. congruence.
  - apply map_size_insert_None. exact Hfresh.
Qed.

Lemma transcribe_video_leaves_temp_file_witness :
  let w' := snd (run (transcribe_video Doubles.agent_speech_down (PyStr "video.mp4"))
                     Doubles.world) in
  fs Doubles.world !! "/tmp/tmp0a1b2c" = None /\
  fs w' = <["/tmp/tmp0a1b2c" := []]> (fs Doubles.world) /\
  (forall p, p <> "/tmp/tmp0a1b2c" -> fs w' !! p = fs Doubles.world !! p) /\
  size (fs w') = S (size (fs Doubles.world)).
Proof.
  apply (transcribe_video_leaves_temp_file Doubles.agent_speech_down (PyStr "video.mp4")
           Doubles.world "/tmp/tmp0a1b2c" ["/tmp/tmp3d4e5f"]).
  vm_compute. reflexivity.
Defined.

(** X5: temporary files pile up: two calls in a row that could each make
    their temporary file used two different names, and both files, empty,
    are there afterwards: two files more than before the first call. *)
Theorem transcribe_video_twice_leaves_two_files self mp4_a mp4_b w n1 rest1 n2 rest2 :
  first_unused (fs w) (tmp_candidates w) = Some (n1, rest1) ->
  let w1 := snd (run (transcribe_video self mp4_a) w) in
  first_unused (fs w1) (tmp_candidates w1) = Some (n2, rest2) ->
  let w2 := snd (run (transcribe_video self mp4_b) w1) in
  n1 <> n2 /\
  fs w2 !! n1 = Some [] /\
  fs w2 !! n2 = Some [] /\
  size (fs w2) = S (S (size (fs w))).
Proof.
  intros H1 w1 H2 w2.
  destruct (transcribe_video_files self mp4_a w n1 rest1 H1) as [Hfs1 _].
  destruct (transcribe_video_files self mp4_b w1 n2 rest2 H2) as [Hfs2 _].
  pose proof (first_unused_fresh _ _ _ _ H1) as F1.
  pose proof (first_unused_fresh _ _ _ _ H2) as F2.
  fold w1 in Hfs1. fold w2 in Hfs2.
  assert (Hne : n1 <> n2).
  { intros ->. rewrite Hfs1, lookup_insert_eq in F2. discriminate. }
  rewrite Hfs2. repeat split.
  - exact Hne.
  - rewrite lookup_insert_ne by congruence. rewrite Hfs1. apply lookup_insert_eq.
  - apply lookup_insert_eq.
  - rewrite map_size_insert_None by exact F2.
    rewrite Hfs1, map_size_insert_None by exact F1. reflexivity.
Qed.

Lemma transcribe_video_twice_leaves_two_files_witness :
  let w1 := snd (run (transcribe_video Doubles.agent (PyStr "a.mp4")) Doubles.world) in
  let w2 := snd (run (transcribe_video Doubles.agent (PyStr "b.mp4")) w1) in
  "/tmp/tmp0a1b2c" <> "/tmp/tmp3d4e5f" /\
  fs w2 !! "/tmp/tmp0a1b2c" = Some [] /\
  fs w2 !! "/tmp/tmp3d4e5f" = Some [] /\
  size (fs w2) = S (S (size (fs Doubles.world))).
Proof.
  apply (transcribe_video_twice_leaves_two_files Doubles.agent (PyStr "a.mp4") (PyStr "b.mp4")
           Doubles.world "/tmp/tmp0a1b2c" ["/tmp/tmp3d4e5f"] "/tmp/tmp3d4e5f" []).
  - vm_compute. reflexivity.
  - vm_compute. reflexivity.
Defined.

(** X6: a recognition result without any alternative makes
    [result.alternatives[0]] fail: when the service's answer has such a
    result, [transcribe_video] raises IndexError and returns no transcript,
    even if other results have alternatives. *)
Theorem transcribe_video_index_error self mp4_file w n rest response :
  first_unused (fs w) (tmp_candidates w) = Some (n, rest) ->
  recognize (_speech_client self) linear16_en_US {| content := [] |} = Ok response ->
  List.Exists (fun r => alternatives r = []) (results response) ->
  fst (run (transcribe_video self mp4_file) w) =
  Raise (IndexError "list index out of range").
Proof.
  intros Htmp Hrec Hgap. rewrite transcribe_video_run, Htmp. cbv zeta.
  rewrite Hrec, (comprehension_top_transcript_gap _ Hgap). reflexivity.
Qed.

Lemma transcribe_video_index_error_witness :
  fst (run (transcribe_video MoreDoubles.agent_speech_gap (PyStr "video.mp4")) Doubles.world) =
  Raise (IndexError "list index out of range").
Proof.
  apply (transcribe_video_index_error MoreDoubles.agent_speech_gap (PyStr "video.mp4")
           Doubles.world "/tmp/tmp0a1b2c" ["/tmp/tmp3d4e5f"]
           MoreDoubles.segment_without_alternative).
  - vm_compute. reflexivity.
  - reflexivity.
  - apply List.Exists_cons_tl. apply List.Exists_cons_hd. reflexivity.
Defined.

(** X7: the video never reaches the speech service: [transcribe_video]
    gives the same outcome and leaves the same world for any two values of
    [mp4_file]. *)
Theorem transcribe_video_ignores_video self mp4_a mp4_b w :
  run (transcribe_video self mp4_a) w = run (transcribe_video self mp4_b) w.
Proof. rewrite !transcribe_video_run. reflexivity. Qed.

(** X8: the joined transcript has separators between segments only: when
    the service answers with no result the transcript is the empty string,
    and when it answers with a single result the transcript is that
    result's first alternative, with no newline added. *)
Theorem transcribe_video_no_outer_separator self mp4_file w n rest response :
  first_unused (fs w) (tmp_candidates w) = Some (n, rest) ->
  recognize (_speech_client self) linear16_en_US {| content := [] |} = Ok response ->
  (results response = [] ->
   fst (run (transcribe_video self mp4_file) w) = Ok "") /\
  (forall a others,
   results response = [ {| alternatives := a :: others |} ] ->
   fst (run (transcribe_video self mp4_file) w) = Ok (transcript a)).
Proof.
  intros Htmp Hrec. rewrite transcribe_video_run, Htmp. cbv zeta. rewrite Hrec.
  split.
  - intros ->. reflexivity.
  - intros a others ->. reflexivity.
Qed.

Lemma transcribe_video_no_outer_separator_witness :
  fst (run (transcribe_video MoreDoubles.agent_speech_silent (PyStr "video.mp4"))
           Doubles.world) = Ok "".
Proof.
  apply (proj1 (transcribe_video_no_outer_separator MoreDoubles.agent_speech_silent
                  (PyStr "video.mp4") Doubles.world "/tmp/tmp0a1b2c" ["/tmp/tmp3d4e5f"]
                  {| results := [] |} ltac:(vm_compute; reflexivity) eq_refl)).
  reflexivity.
Defined.

(** ** [assist]: what decides a run *)

(** X9: of a session and a query, [assist] uses only whether the
    "mp4_file" attachment is truthy: two calls on queries (and sessions)
    that agree on that have the same outcome and leave the same world,
    whatever the attachment holds and whatever else is attached. *)
Theorem assist_depends_on_truthiness_only self session_a session_b query_a query_b w :
  truthy (dict_get (attachments query_a) "mp4_file") =
  truthy (dict_get (attachments query_b) "mp4_file") ->
  run (assist self session_a query_a) w = run (assist self session_b query_b) w.
Proof.
  intros H.
  destruct (truthy (dict_get (attachments query_b) "mp4_file")) eqn:Hb.
  - rewrite (assist_truthy _ _ _ _ H), (assist_truthy _ _ _ _ Hb).
    rewrite !transcribe_video_run. reflexivity.
  - rewrite (assist_falsy _ _ _ _ H), (assist_falsy _ _ _ _ Hb). reflexivity.
Qed.

Lemma assist_depends_on_truthiness_only_witness :
  run (assist Doubles.agent (mkSession 1) Doubles.query_with_video) Doubles.world =
  run (assist Doubles.agent (mkSession 2) MoreDoubles.query_with_bytes) Doubles.world.
Proof.
  apply (assist_depends_on_truthiness_only Doubles.agent (mkSession 1) (mkSession 2)
           Doubles.query_with_video MoreDoubles.query_with_bytes Doubles.world).
  vm_compute. reflexivity.
Defined.

(** X10: every call of [assist] makes the response handler receive exactly
    one block, a text block: "ERROR" when the attachment is missing or
    falsy, "PROCESSING" otherwise; no JSON block and no completion signal
    is ever emitted.  [assist] returns normally exactly when the attachment
    is missing or falsy. *)
Theorem assist_emits_one_text_block self session query w :
  let video := truthy (dict_get (attachments query) "mp4_file") in
  let r := run (assist self session query) w in
  blocks (trace (snd r)) =
    blocks (trace w) ++
    [if video then EmitTextBlock "PROCESSING" "Processing MP4 file..."
     else EmitTextBlock "ERROR" "No MP4 file provided."] /\
  (fst r = Ok tt <-> video = false).
Proof.
  intros video r. subst r.
  destruct (truthy (dict_get (attachments query) "mp4_file")) eqn:H; subst video.
  - destruct (assist_with_video_raises self session query w H) as (e & w' & E & Hb & _).
    rewrite E. cbn [fst snd]. split; [exact Hb|]. split; discriminate.
  - rewrite (assist_falsy _ _ _ _ H). cbn [fst snd log trace].
    rewrite blocks_app. split; [reflexivity|]. split; reflexivity.
Qed.

(** ** The entry point *)

(** X11: started with one of the three variables unset or empty, the entry
    point never reaches the server: its outcome and the world it leaves are
    the same for any two serving loops. *)
Theorem main_without_configuration_never_serves
    new_ModelProvider new_SearchProvider new_SpeechClient server_run_a server_run_b
    environ w i var :
  first_unset environ = Some (i, var) ->
  main new_ModelProvider new_SearchProvider new_SpeechClient server_run_a environ w =
  main new_ModelProvider new_SearchProvider new_SpeechClient server_run_b environ w.
Proof.
  intros Hfind. unfold main, bind. rewrite init_run.
  unfold first_unset, required_vars in Hfind. cbn in Hfind.
  destruct (str_truthy (environ !! "MODEL_API_KEY")) eqn:E1; cbn [negb]; [|reflexivity].
  destruct (new_ModelProvider _) as [mp|e]; [|reflexivity].
  destruct (str_truthy (environ !! "TAVILY_API_KEY")) eqn:E2; cbn [negb]; [|reflexivity].
  destruct (new_SearchProvider _) as [sp|e]; [|reflexivity].
  destruct (str_truthy (environ !! "GOOGLE_CLOUD_SPEECH_API_KEY")) eqn:E3; cbn [negb];
    [|reflexivity].
  cbn in Hfind. discriminate Hfind.
Qed.

Lemma main_without_configuration_never_serves_witness :
  main Doubles.new_ModelProvider Doubles.new_SearchProvider Doubles.new_SpeechClient
    MoreDoubles.server_run_once Doubles.env_no_speech_key Doubles.world =
  main Doubles.new_ModelProvider Doubles.new_SearchProvider Doubles.new_SpeechClient
    MoreDoubles.server_run_idle Doubles.env_no_speech_key Doubles.world.
Proof.
  apply (main_without_configuration_never_serves
           Doubles.new_ModelProvider Doubles.new_SearchProvider Doubles.new_SpeechClient
           MoreDoubles.server_run_once MoreDoubles.server_run_idle
           Doubles.env_no_speech_key Doubles.world 2 "GOOGLE_CLOUD_SPEECH_API_KEY").
  vm_compute. reflexivity.
Defined.

(** X12: started with the three variables set and the constructors
    returning, the entry point hands to the serving loop a server bound to
    the agent named "Video Processing Agent" that holds the three clients,
    in the world where exactly these three were created. *)
Theorem main_serves_the_configured_agent
    new_ModelProvider new_SearchProvider new_SpeechClient server_run
    environ w k1 k2 k3 mp sp sc :
  environ !! "MODEL_API_KEY" = Some k1 -> k1 <> "" ->
  environ !! "TAVILY_API_KEY" = Some k2 -> k2 <> "" ->
  environ !! "GOOGLE_CLOUD_SPEECH_API_KEY" = Some k3 -> k3 <> "" ->
  new_ModelProvider k1 = Ok mp ->
  new_SearchProvider k2 = Ok sp ->
  new_SpeechClient = Ok sc ->
  main new_ModelProvider new_SearchProvider new_SpeechClient server_run environ w =
  server_run
    {| server_agent := {| name := "Video Processing Agent"; _model_provider := mp;
                          _search_provider := sp; _speech_client := sc |} |}
    (with_trace w [NewModelProvider k1; NewSearchProvider k2; NewSpeechClient]).
Proof.
  intros E1 N1 E2 N2 E3 N3 Hmp Hsp Hsc. unfold main, bind. rewrite init_run.
  unfold clients. rewrite E1, E2, E3.
  rewrite !str_truthy_Some by assumption.
  change (as_str (Some k1)) with k1. change (as_str (Some k2)) with k2.
  cbn [negb]. rewrite Hmp, Hsp, Hsc. reflexivity.
Qed.

Lemma main_serves_the_configured_agent_witness :
  main Doubles.new_ModelProvider Doubles.new_SearchProvider Doubles.new_SpeechClient
    MoreDoubles.server_run_once MoreDoubles.env_complete Doubles.world =
  MoreDoubles.server_run_once
    {| server_agent :=
         {| name := "Video Processing Agent";
            _model_provider := {| model_api_key := "sk-model";
                                  query_stream := query_stream Doubles.model_abc |};
            _search_provider := {| search_api_key := "tvly" |};
            _speech_client := Doubles.speech_hello_world |} |}
    (with_trace Doubles.world
       [NewModelProvider "sk-model"; NewSearchProvider "tvly"; NewSpeechClient]).
Proof.
  apply (main_serves_the_configured_agent
           Doubles.new_ModelProvider Doubles.new_SearchProvider Doubles.new_SpeechClient
           MoreDoubles.server_run_once MoreDoubles.env_complete Doubles.world
           "sk-model" "tvly" "g-key");
    try discriminate; try reflexivity; vm_compute; reflexivity.
Defined.
